(** * AgentGateway web interface: a shallow embedding of the handlers

    Source files embedded here:
    - [services/web-interface/mcp_gateway/main.py]  (module [Gateway])
    - [services/web-interface/mcp_gateway/services/context7-mcp/main.py]
      (module [Context7])

    Python [str] values are Rocq strings (sequences of bytes, the UTF-8
    encoding of the source text); Python dicts returned as JSON are
    association lists in the order the source writes the keys; the dicts
    used as lookup tables ([agent_type_map], the keyword arguments of
    [str.format]) are [gmap]s.  Exceptions are values of [exn] carried by
    [result]. *)

From Stdlib Require Import ZArith Ascii.
From Stdlib Require String.
From stdpp Require Import base option list strings gmap.

Local Open Scope Z_scope.

(** ** Strings *)

(** The double-quote character.  Python literals that hold it are written
    below with a backquote in its place (the source has no backquote at
    all) and decoded by [py]. *)
Definition dquote : ascii := ascii_of_nat 34.
Definition bquote : ascii := ascii_of_nat 96.

Fixpoint py (s : string) : string :=
  match s with
  | EmptyString => EmptyString
  | String c t => String (if decide (c = bquote) then dquote else c) (py t)
  end.

(** Python's [needle in hay] on [str]. *)
Fixpoint startswith (hay needle : string) : bool :=
  match needle, hay with
  | EmptyString, _ => true
  | String _ _, EmptyString => false
  | String a n, String b h => if decide (a = b) then startswith h n else false
  end.

Fixpoint str_in (needle hay : string) : bool :=
  startswith hay needle ||
  match hay with
  | EmptyString => false
  | String _ t => str_in needle t
  end.

(** The same as a proposition: [needle] occurs somewhere inside [hay]. *)
Definition Substring (needle hay : string) : Prop :=
  ∃ pre post, hay = pre +:+ needle +:+ post.

(** ** JSON values, exceptions, HTTP responses *)

Local Unset Elimination Schemes.
Inductive json :=
| JStr (s : string)
| JBool (b : bool)
| JList (l : list json)
| JDict (items : list (string * json)).
Local Set Elimination Schemes.

(** Python's [d[k]] read back from a returned dict. *)
Fixpoint assoc (k : string) (items : list (string * json)) : option json :=
  match items with
  | [] => None
  | (k', v) :: rest => if decide (k = k') then Some v else assoc k rest
  end.

Definition getitem (j : json) (k : string) : option json :=
  match j with
  | JDict items => assoc k items
  | _ => None
  end.

(** The keys of a returned dict, in order. *)
Definition keys (j : json) : list string :=
  match j with
  | JDict items => items.*1
  | _ => []
  end.

(** The exceptions that leave a handler: the [HTTPException] the chat
    handler raises, and what [str.format] raises. *)
Inductive exn :=
| HTTPException (status_code : Z) (detail : string)
| KeyError (key : string)
| IndexError (index : Z)
| ValueError (msg : string).

Inductive result (A : Type) :=
| Ok (a : A)
| Raise (e : exn).
Arguments Ok {A} a.
Arguments Raise {A} e.

Inductive content :=
| Html (body : string)
| Json (body : json)
| Text (body : string)
| ValidationError (missing : list string).

Record Response := mkResponse { status : Z; body : content }.

(** What the framework sends for the outcome of a handler: the returned
    value with status 200, an [HTTPException] with its own status and its
    detail, and any other exception as a bare 500. *)
Definition respond {A} (wrap : A → content) (r : result A) : Response :=
  match r with
  | Ok a => mkResponse 200 (wrap a)
  | Raise (HTTPException code detail) =>
      mkResponse code (Json (JDict [("detail", JStr detail)]))
  | Raise _ => mkResponse 500 (Text "Internal Server Error")
  end.

(** ** The Context7 placeholder service *)

Module Context7.

Definition health_check : json :=
  JDict [("status", JStr "healthy"); ("service", JStr "context7-mcp")].

Definition mcp_capabilities : json :=
  JDict [("capabilities", JList [JStr "search"; JStr "upload"; JStr "index"]);
         ("service", JStr "context7-mcp")].

Definition root : json :=
  JDict [("message", JStr "Context7 MCP Service"); ("version", JStr "0.1.0")].

Inductive route := GET_root | GET_health | GET_mcp_capabilities.

(** A request carries whatever the client sent; no handler takes a
    parameter, so none of it reaches them. *)
Record Request := { path : route; query : string; payload : string }.

Definition app (rq : Request) : Response :=
  match path rq with
  | GET_health => respond Json (Ok health_check)
  | GET_mcp_capabilities => respond Json (Ok mcp_capabilities)
  | GET_root => respond Json (Ok root)
  end.

End Context7.

(** ** Python's [str.format]

    The scanner follows CPython's [MarkupIterator_next] and [parse_field]
    character by character, as a state machine over the format string;
    a replacement field is rendered as soon as its closing brace is read,
    so the first failure from the left is the one raised.  The calls made
    by this program pass keyword arguments only, all of them [str].  The
    scanner reads bytes where Python reads characters; the one place
    where that differs is the conversion character after [!], so a
    non-ASCII byte there is left without an answer ([None]). *)

Definition snoc (s : string) (c : ascii) : string := s +:+ String c "".

Inductive scan :=
| InLiteral
| AfterOpen
| AfterClose
| InName (name : string)
| InIndex (name : string)
| AfterBang (name : string)
| AfterConv (name : string) (conv : ascii)
| InSpec (name : string) (conv : option ascii) (spec : string) (depth : nat).

(** [field_name_split]: the part of the field name before the first [.]
    or [[]; what follows it is the chain of attribute and item accesses. *)
Fixpoint field_first (name : string) : string :=
  match name with
  | EmptyString => EmptyString
  | String c t =>
      if decide (c = "."%char ∨ c = "["%char) then EmptyString
      else String c (field_first t)
  end.

Fixpoint field_rest (name : string) : string :=
  match name with
  | EmptyString => EmptyString
  | String c t =>
      if decide (c = "."%char ∨ c = "["%char) then name else field_rest t
  end.

Definition PY_SSIZE_T_MAX : Z := 2 ^ 63 - 1.

(** [get_integer]: [Some (Ok n)] when every character is a decimal digit,
    [Some (Raise _)] when there are too many of them, [None] otherwise
    (C returns -1 without an error). *)
Fixpoint get_integer_from (acc : Z) (s : string) : option (result Z) :=
  match s with
  | EmptyString => Some (Ok acc)
  | String c t =>
      match Ascii.is_nat c with
      | None => None
      | Some d =>
          if decide (acc > (PY_SSIZE_T_MAX - Z.of_nat d) / 10)
          then Some (Raise (ValueError "Too many decimal digits in format string"))
          else get_integer_from (acc * 10 + Z.of_nat d) t
      end
  end.

Definition get_integer (s : string) : option (result Z) :=
  match s with
  | EmptyString => None
  | _ => get_integer_from 0 s
  end.

Fixpoint is_ascii (s : string) : bool :=
  match s with
  | EmptyString => true
  | String c t => bool_decide (nat_of_ascii c < 128)%nat && is_ascii t
  end.

(** [output_markup] for a call of [fmt.format] with keyword arguments
    only, whose values are [str]: the object is looked up first ([get_field_object]), then
    converted and formatted.  With no positional argument every numeric
    or empty field name is out of range.  The answer is [None] where
    Python's behaviour is not embedded here: a field name holding a
    non-ASCII character (it may be a Unicode digit), and, once the key is
    found, an attribute or item access on the value, a conversion other
    than [!s], or a non-empty format specification. *)
Definition render_field (kwargs : gmap string string)
    (name : string) (conv : option ascii) (spec : string)
  : option (result string) :=
  let first := field_first name in
  if negb (is_ascii first) then None else
  match get_integer first with
  | Some (Raise e) => Some (Raise e)
  | Some (Ok index) => Some (Raise (IndexError index))
  | None =>
      if decide (first = "") then Some (Raise (IndexError 0)) else
      match kwargs !! first with
      | None => Some (Raise (KeyError first))
      | Some value =>
          if decide (field_rest name = "" ∧ (conv = None ∨ conv = Some "s"%char)
                     ∧ spec = "")
          then Some (Ok value)
          else None
      end
  end.

Definition emit (c : ascii) (r : option (result string))
  : option (result string) :=
  match r with
  | Some (Ok out) => Some (Ok (String c out))
  | _ => r
  end.

Definition emit_field (f r : option (result string))
  : option (result string) :=
  match f with
  | Some (Ok value) =>
      match r with
      | Some (Ok out) => Some (Ok (value +:+ out))
      | _ => r
      end
  | _ => f
  end.

Definition value_error (msg : string) : option (result string) :=
  Some (Raise (ValueError msg)).

Fixpoint format_from (kwargs : gmap string string) (st : scan) (s : string)
  : option (result string) :=
  match s with
  | EmptyString =>
      match st with
      | InLiteral => Some (Ok "")
      | AfterOpen => value_error "Single '{' encountered in format string"
      | AfterClose => value_error "Single '}' encountered in format string"
      | InName _ | InIndex _ => value_error "expected '}' before end of string"
      | AfterBang _ =>
          value_error "end of string while looking for conversion specifier"
      | AfterConv _ _ | InSpec _ _ _ _ =>
          value_error "unmatched '{' in format spec"
      end
  | String c t =>
      let field name conv spec :=
        emit_field (render_field kwargs name conv spec)
                   (format_from kwargs InLiteral t) in
      let in_name name :=
        if decide (c = "{"%char) then value_error "unexpected '{' in field name"
        else if decide (c = "["%char) then format_from kwargs (InIndex (snoc name c)) t
        else if decide (c = "}"%char) then field name None ""
        else if decide (c = ":"%char) then format_from kwargs (InSpec name None "" 1) t
        else if decide (c = "!"%char) then format_from kwargs (AfterBang name) t
        else format_from kwargs (InName (snoc name c)) t in
      match st with
      | InLiteral =>
          if decide (c = "{"%char) then format_from kwargs AfterOpen t
          else if decide (c = "}"%char) then format_from kwargs AfterClose t
          else emit c (format_from kwargs InLiteral t)
      | AfterOpen =>
          if decide (c = "{"%char) then emit c (format_from kwargs InLiteral t)
          else in_name ""
      | AfterClose =>
          if decide (c = "}"%char) then emit c (format_from kwargs InLiteral t)
          else value_error "Single '}' encountered in format string"
      | InName name => in_name name
      | InIndex name =>
          if decide (c = "]"%char) then format_from kwargs (InName (snoc name c)) t
          else format_from kwargs (InIndex (snoc name c)) t
      | AfterBang name =>
          if bool_decide (nat_of_ascii c < 128)%nat
          then format_from kwargs (AfterConv name c) t
          else None
      | AfterConv name conv =>
          if decide (c = "}"%char) then field name (Some conv) ""
          else if decide (c = ":"%char)
          then format_from kwargs (InSpec name (Some conv) "" 1) t
          else value_error "expected ':' after conversion specifier"
      | InSpec name conv spec depth =>
          if decide (c = "{"%char)
          then format_from kwargs (InSpec name conv (snoc spec c) (S depth)) t
          else if decide (c = "}"%char) then
            match depth with
            | O | S O => field name conv spec
            | S d => format_from kwargs (InSpec name conv (snoc spec c) d) t
            end
          else format_from kwargs (InSpec name conv (snoc spec c) depth) t
      end
  end.

(** [fmt.format] called with the keyword arguments [kwargs]. *)
Definition str_format (fmt : string) (kwargs : gmap string string)
  : option (result string) :=
  format_from kwargs InLiteral fmt.

(** Text without a brace, which the scanner copies as it is, and the
    effect of a copied text on what follows it. *)
Fixpoint brace_free (s : string) : bool :=
  match s with
  | EmptyString => true
  | String c t =>
      negb (bool_decide (c = "{"%char ∨ c = "}"%char)) && brace_free t
  end.

Definition prepend (text : string) (r : option (result string))
  : option (result string) :=
  match r with
  | Some (Ok out) => Some (Ok (text +:+ out))
  | _ => r
  end.

(** ** The web interface *)

Module Gateway.

(** *** The optional library *)

(** Modelled from the spec: the enum of agent types of the external
    library, which this program only references; it has the four
    values the chat handler names and further ones. *)
Inductive AgentType :=
| OPENAI_GPT
| ANTHROPIC_CLAUDE
| GROQ
| BEDROCK_CONVERSE
| OTHER_AGENT_TYPE (name : string).

#[global] Instance AgentType_eq_dec : EqDecision AgentType.
Proof. solve_decision. Defined.

(** Modelled from the spec: the object the constructor of the external
    library returns. *)
Inductive GatewayObject := gateway_object (id : nat).

(** The outcome of code that may raise: a value, or an exception
    deriving from [Exception], kept as its text [str(e)]. *)
Inductive attempt (A : Type) :=
| Returned (a : A)
| Raised (str_e : string).
Arguments Returned {A} a.
Arguments Raised {A} str_e.

#[global] Instance attempt_ret : MRet attempt := λ A a, Returned a.
#[global] Instance attempt_bind : MBind attempt := λ A B k r,
  match r with
  | Returned a => k a
  | Raised text => Raised text
  end.

(** What the import brings when it succeeds: the constructor, given as
    the outcome of calling it. *)
Record Library := { construct : attempt GatewayObject }.

(** The module globals set by the guarded import: on [ImportError] the
    flag is false and [AgentGateway] is Python's [None]. *)
Record Globals := {
  AGENTGATEWAY_AVAILABLE : bool;
  AgentGateway : option (attempt GatewayObject)
}.

Definition load (import : option Library) : Globals :=
  match import with
  | Some lib =>
      {| AGENTGATEWAY_AVAILABLE := true; AgentGateway := Some (construct lib) |}
  | None =>
      {| AGENTGATEWAY_AVAILABLE := false; AgentGateway := None |}
  end.

(** [AgentGateway()]: calling [None] raises a [TypeError]. *)
Definition call_AgentGateway (g : Globals) : attempt GatewayObject :=
  match AgentGateway g with
  | Some outcome => outcome
  | None => Raised "'NoneType' object is not callable"
  end.

(** *** Pages *)

Definition HTML_TEMPLATE : string := py "
<!DOCTYPE html>
<html lang=`en`>
<head>
    <meta charset=`UTF-8`>
    <meta name=`viewport` content=`width=device-width, initial-scale=1.0`>
    <title>AgentGateway - {title}</title>
    <style>
        * { margin: 0; padding: 0; box-sizing: border-box; }
        body { 
            font-family: -apple-system, BlinkMacSystemFont, 'Segoe UI', system-ui, sans-serif; 
            background: #f5f5f7; color: #1d1d1f; line-height: 1.6; 
        }
        .container { max-width: 1200px; margin: 0 auto; padding: 20px; }
        .header { 
            background: #fff; border-radius: 12px; padding: 24px; margin-bottom: 24px; 
            box-shadow: 0 4px 16px rgba(0,0,0,0.1);
        }
        .header h1 { color: #007AFF; margin-bottom: 8px; }
        .nav { display: flex; gap: 12px; margin-bottom: 24px; }
        .nav a { 
            background: #007AFF; color: white; padding: 12px 20px; border-radius: 8px; 
            text-decoration: none; transition: all 0.2s; 
        }
        .nav a:hover { background: #0056b3; transform: translateY(-1px); }
        .nav a.active { background: #0056b3; }
        .card { 
            background: #fff; border-radius: 12px; padding: 24px; margin-bottom: 24px; 
            box-shadow: 0 2px 8px rgba(0,0,0,0.1); 
        }
        .status { 
            display: inline-block; padding: 4px 12px; border-radius: 20px; 
            font-size: 14px; font-weight: 500; 
        }
        .status.healthy { background: #d4edda; color: #155724; }
        .status.error { background: #f8d7da; color: #721c24; }
        .metrics-grid { 
            display: grid; grid-template-columns: repeat(auto-fit, minmax(200px, 1fr)); 
            gap: 16px; margin: 20px 0; 
        }
        .metric { background: #f8f9fa; padding: 16px; border-radius: 8px; text-align: center; }
        .metric-value { font-size: 24px; font-weight: bold; color: #007AFF; }
        .playground-form {
            display: flex; flex-direction: column; gap: 16px;
        }
        .playground-form input, .playground-form select, .playground-form textarea {
            padding: 12px; border: 1px solid #ddd; border-radius: 8px; font-size: 16px;
        }
        .playground-form button {
            background: #007AFF; color: white; padding: 12px 24px; border: none;
            border-radius: 8px; font-size: 16px; cursor: pointer;
        }
        .playground-form button:hover { background: #0056b3; }
        .response-box {
            background: #f8f9fa; border-radius: 8px; padding: 16px; margin-top: 16px;
            border-left: 4px solid #007AFF; white-space: pre-wrap; font-family: monospace;
        }
        .agent-list {
            display: grid; gap: 12px;
        }
        .agent-item {
            background: #f8f9fa; padding: 16px; border-radius: 8px;
            border-left: 4px solid #007AFF;
        }
    </style>
</head>
<body>
    <div class=`container`>
        <div class=`header`>
            <h1>🤖 AgentGateway Web Interface</h1>
            <p>Web interface for AgentGateway library - Version 1.0.0</p>
        </div>
        
        <nav class=`nav`>
            <a href=`/` {home_active}>🏠 Dashboard</a>
            <a href=`/playground` {playground_active}>🎮 Playground</a>
            <a href=`/agents` {agents_active}>🤖 Agents</a>
            <a href=`/tools` {tools_active}>🛠️ Tools</a>
        </nav>
        
        <div class=`card`>
            {content}
        </div>
    </div>
</body>
</html>
".

Definition dashboard : result string :=
  let simple_html := py "
    <!DOCTYPE html>
    <html>
    <head><title>AgentGateway</title></head>
    <body>
        <h1>🤖 AgentGateway Web Interface</h1>
        <p>Status: Available</p>
        <p><a href=`/health`>Health Check</a></p>
        <p><a href=`/api/docs`>API Documentation</a></p>
        <p><a href=`/api/agents`>List Agents</a></p>
    </body>
    </html>
    " in
  Ok simple_html.

Definition playground : result string :=
  let simple_playground := py "
    <!DOCTYPE html>
    <html>
    <head>
        <title>AgentGateway Playground</title>
        <style>
            body { font-family: Arial, sans-serif; margin: 40px; }
            form { margin: 20px 0; }
            input, select, textarea, button { margin: 10px 0; padding: 10px; width: 300px; }
            button { width: 100px; background: #007AFF; color: white; border: none; border-radius: 5px; }
            #response { background: #f0f0f0; padding: 15px; margin: 20px 0; border-radius: 5px; white-space: pre-wrap; }
        </style>
    </head>
    <body>
        <h1>🎮 AgentGateway Playground</h1>
        <p>Interactive chat interface for testing AI agents</p>
        
        <form onsubmit=`sendMessage(event)`>
            <div>
                <label>Agent Type:</label><br>
                <select name=`agent_type` id=`agent_type`>
                    <option value=`openai`>OpenAI GPT</option>
                    <option value=`anthropic`>Anthropic Claude</option>
                    <option value=`groq`>Groq</option>
                    <option value=`bedrock`>AWS Bedrock</option>
                </select>
            </div>
            
            <div>
                <label>Model:</label><br>
                <input type=`text` name=`model` id=`model` placeholder=`gpt-3.5-turbo` value=`gpt-3.5-turbo`>
            </div>
            
            <div>
                <label>Message:</label><br>
                <textarea name=`message` id=`message` placeholder=`Enter your message...` rows=`4`></textarea>
            </div>
            
            <button type=`submit`>Send</button>
        </form>
        
        <div id=`response` style=`display: none;`></div>
        
        <script>
        async function sendMessage(event) {
            event.preventDefault();
            const formData = new FormData(event.target);
            const data = {
                message: formData.get('message'),
                agent_type: formData.get('agent_type'),
                model: formData.get('model')
            };
            
            const responseDiv = document.getElementById('response');
            responseDiv.style.display = 'block';
            responseDiv.textContent = 'Sending message...';
            
            try {
                const response = await fetch('/api/chat', {
                    method: 'POST',
                    headers: {'Content-Type': 'application/json'},
                    body: JSON.stringify(data)
                });
                
                const result = await response.json();
                responseDiv.textContent = JSON.stringify(result, null, 2);
            } catch (error) {
                responseDiv.textContent = 'Error: ' + error.message;
            }
        }
        </script>
        
        <p><a href=`/`>← Back to Dashboard</a></p>
    </body>
    </html>
    " in
  Ok simple_playground.

Definition agents_list (g : Globals) : string :=
  if negb (AGENTGATEWAY_AVAILABLE g) then py "
        <div style=`background: #f8d7da; color: #721c24; padding: 16px; border-radius: 8px;`>
            AgentGateway library not available.
        </div>
        "
  else py "
        <div class=`agent-list`>
            <div class=`agent-item`>
                <h4>OpenAI GPT Agent</h4>
                <p>Supports GPT-3.5, GPT-4 and other OpenAI models</p>
            </div>
            <div class=`agent-item`>
                <h4>Anthropic Claude Agent</h4>
                <p>Claude 3 and other Anthropic models</p>
            </div>
            <div class=`agent-item`>
                <h4>Groq Agent</h4>
                <p>Fast inference with Groq's LPU technology</p>
            </div>
            <div class=`agent-item`>
                <h4>AWS Bedrock Agent</h4>
                <p>Access to AWS Bedrock foundation models</p>
            </div>
            <div class=`agent-item`>
                <h4>Fireworks AI Agent</h4>
                <p>Fireworks AI hosted models</p>
            </div>
            <div class=`agent-item`>
                <h4>Together AI Agent</h4>
                <p>Together AI platform models</p>
            </div>
        </div>
        ".

Definition agents_content (g : Globals) : string :=
  "
    <h2>🤖 Available Agents</h2>
    <p>AgentGateway supports multiple AI providers and models.</p>
    " +:+ agents_list g +:+ "
    ".

Definition agents (g : Globals) : option (result string) :=
  let content := agents_content g in
  str_format HTML_TEMPLATE
    (list_to_map [("title", "Agents");
                  ("content", content);
                  ("home_active", "");
                  ("playground_active", "");
                  ("agents_active", py "class=`active`");
                  ("tools_active", "")]).

Definition tools_content : string := py "
    <h2>🛠️ Built-in Tools</h2>
    <p>AgentGateway includes various tools for enhanced agent capabilities.</p>
    
    <div class=`agent-list`>
        <div class=`agent-item`>
            <h4>Web Search Tool</h4>
            <p>Search the web for current information</p>
        </div>
        <div class=`agent-item`>
            <h4>Calculator Tool</h4>
            <p>Perform mathematical calculations</p>
        </div>
        <div class=`agent-item`>
            <h4>Weather Tool</h4>
            <p>Get weather information for any location</p>
        </div>
        <div class=`agent-item`>
            <h4>Translation Tool</h4>
            <p>Translate text between languages</p>
        </div>
        <div class=`agent-item`>
            <h4>Sentiment Analysis Tool</h4>
            <p>Analyze sentiment of text</p>
        </div>
        <div class=`agent-item`>
            <h4>Text Summarization Tool</h4>
            <p>Summarize long text content</p>
        </div>
        <div class=`agent-item`>
            <h4>Topic Detection Tool</h4>
            <p>Detect topics in text content</p>
        </div>
        <div class=`agent-item`>
            <h4>Ask User Tool</h4>
            <p>Interactive tool to ask user for input</p>
        </div>
    </div>
    ".

Definition tools (g : Globals) : option (result string) :=
  let content := tools_content in
  str_format HTML_TEMPLATE
    (list_to_map [("title", "Tools");
                  ("content", content);
                  ("home_active", "");
                  ("playground_active", "");
                  ("agents_active", "");
                  ("tools_active", py "class=`active`")]).

(** *** API endpoints *)

Definition health_check (g : Globals) : result json :=
  Ok (JDict [("status", JStr (if AGENTGATEWAY_AVAILABLE g then "healthy"
                              else "limited"));
             ("agentgateway_available", JBool (AGENTGATEWAY_AVAILABLE g));
             ("version", JStr "1.0.0")]).

Record ChatRequest := {
  message : string;
  agent_type : string;
  model : string
}.

(** A well-typed JSON body of a chat request: an object in which each of
    the three fields is a string or is left out (other keys are ignored
    by the validation).  Bodies of any other shape are [RequestBody]
    below. *)
Record ChatBody := {
  body_message : option string;
  body_agent_type : option string;
  body_model : option string
}.

(** Building the [ChatRequest] from a well-typed body: [message] has no
    default, the other two fields have one. *)
Definition ChatRequest_validate (b : ChatBody) : option ChatRequest :=
  m ← body_message b;
  Some {| message := m;
          agent_type := default "openai" (body_agent_type b);
          model := default "gpt-3.5-turbo" (body_model b) |}.

Definition agent_type_map : gmap string AgentType :=
  {[ "openai" := OPENAI_GPT;
     "anthropic" := ANTHROPIC_CLAUDE;
     "groq" := GROQ;
     "bedrock" := BEDROCK_CONVERSE ]}.

(** The local variables of [chat] once the [try] body has run. *)
Record chat_locals := {
  local_gateway : GatewayObject;
  local_agent_type : AgentType;
  local_response_text : string
}.

(** The body of the [try] block of [chat], with its locals and the dict
    it returns. *)
Definition chat_try (g : Globals) (request : ChatRequest)
  : attempt (chat_locals * json) :=
  gateway ← call_AgentGateway g;
  let agent_type' :=
    default OPENAI_GPT (agent_type_map !! agent_type request) in
  let response_text :=
    "Mock response for '" +:+ message request +:+ "' using "
      +:+ agent_type request +:+ " model " +:+ model request in
  mret ({| local_gateway := gateway;
           local_agent_type := agent_type';
           local_response_text := response_text |},
        JDict [("response", JStr response_text);
               ("agent_type", JStr (agent_type request));
               ("model", JStr (model request));
               ("status", JStr "success")]).

Definition chat (g : Globals) (request : ChatRequest) : result json :=
  if negb (AGENTGATEWAY_AVAILABLE g)
  then Raise (HTTPException 503 "AgentGateway library not available")
  else
    match chat_try g request with
    | Returned (_, answer) => Ok answer
    | Raised str_e => Raise (HTTPException 500 ("Error: " +:+ str_e))
    end.

Definition list_agents (g : Globals) : result json :=
  if negb (AGENTGATEWAY_AVAILABLE g)
  then Ok (JDict [("agents", JList []); ("available", JBool false)])
  else
    Ok (JDict
          [("agents", JList
              [JDict [("id", JStr "openai"); ("name", JStr "OpenAI GPT");
                      ("description", JStr "OpenAI GPT models")];
               JDict [("id", JStr "anthropic"); ("name", JStr "Anthropic Claude");
                      ("description", JStr "Claude models")];
               JDict [("id", JStr "groq"); ("name", JStr "Groq");
                      ("description", JStr "Groq LPU models")];
               JDict [("id", JStr "bedrock"); ("name", JStr "AWS Bedrock");
                      ("description", JStr "Bedrock models")]]);
           ("available", JBool true)]).

(** *** Routing *)

Inductive route :=
| GET_root
| GET_playground
| GET_agents
| GET_tools
| GET_health
| POST_api_chat
| GET_api_agents.

(** [POST /api/chat]: the body is validated into the handler's
    [ChatRequest] parameter first; a body that does not validate is
    answered with 422 and the handler does not run. *)
Definition post_api_chat (g : Globals) (b : ChatBody) : Response :=
  match ChatRequest_validate b with
  | None => mkResponse 422 (ValidationError ["message"])
  | Some request => respond Json (chat g request)
  end.

(** What a JSON object sent as body holds for one of the three fields:
    nothing, null, a string, a number or boolean, or an array or
    object. *)
Inductive sent :=
| Omitted
| Null
| Str (s : string)
| Scalar
| Compound.

(** The JSON value of a request body: an object, seen through the three
    fields of [ChatRequest], or any other JSON value. *)
Inductive RequestBody :=
| NotAnObject
| Object (sent_message sent_agent_type sent_model : sent).

Definition is_omitted (f : sent) : bool :=
  match f with
  | Omitted => true
  | _ => false
  end.

Definition is_scalar (f : sent) : bool :=
  match f with
  | Scalar => true
  | _ => false
  end.

(** Values no [str] field accepts. *)
Definition type_error (f : sent) : bool :=
  match f with
  | Null | Compound => true
  | _ => false
  end.

Definition as_string (f : sent) : option string :=
  match f with
  | Str s => Some s
  | _ => None
  end.

Definition sent_of (field : option string) : sent :=
  match field with
  | Some s => Str s
  | None => Omitted
  end.

(** A well-typed body as the JSON value it is. *)
Definition ChatBody_json (b : ChatBody) : RequestBody :=
  Object (sent_of (body_message b)) (sent_of (body_agent_type b))
    (sent_of (body_model b)).

(** The type check of the three [str] fields.  A body that is no object
    or has null, an array or an object in one of the fields is refused
    (with the fields at fault, message among them when it is left out).
    Whether a number or a boolean is coerced to a string or refused
    depends on the version of the validation library, so a body holding
    one is left undetermined.  Every other body is well typed. *)
Inductive reading :=
| Refused (fields : list string)
| Undetermined
| WellTyped (b : ChatBody).

Definition read_body (raw : RequestBody) : reading :=
  match raw with
  | NotAnObject => Refused []
  | Object m a md =>
      if is_scalar m || is_scalar a || is_scalar md then Undetermined
      else if type_error m || type_error a || type_error md then
        Refused
          ((if type_error m || is_omitted m then ["message"] else [])
             ++ (if type_error a then ["agent_type"] else [])
             ++ (if type_error md then ["model"] else []))
      else
        WellTyped {| body_message := as_string m;
                     body_agent_type := as_string a;
                     body_model := as_string md |}
  end.


(** [POST /api/chat] on any body; [None] on the undetermined ones. *)
Definition post_api_chat_body (g : Globals) (raw : RequestBody)
  : option Response :=
  match read_body raw with
  | Refused fields => Some (mkResponse 422 (ValidationError fields))
  | Undetermined => None
  | WellTyped b => Some (post_api_chat g b)
  end.

Record Request := { path : route; query : string; payload : RequestBody }.

Definition app (g : Globals) (rq : Request) : option Response :=
  match path rq with
  | GET_root => Some (respond Html dashboard)
  | GET_playground => Some (respond Html playground)
  | GET_agents => respond Html <$> agents g
  | GET_tools => respond Html <$> tools g
  | GET_health => Some (respond Json (health_check g))
  | POST_api_chat => post_api_chat_body g (payload rq)
  | GET_api_agents => Some (respond Json (list_agents g))
  end.

(** *** Concrete module states and requests *)

Definition working_library : Library :=
  {| construct := Returned (gateway_object 0) |}.
Definition failing_library : Library :=
  {| construct := Raised "boom" |}.

Definition globals_absent : Globals := load None.
Definition globals_present : Globals := load (Some working_library).
Definition globals_failing : Globals := load (Some failing_library).

Definition request_hi : ChatRequest :=
  {| message := "hi"; agent_type := "groq"; model := "llama" |}.
Definition request_mistral : ChatRequest :=
  {| message := "hi"; agent_type := "mistral"; model := "llama" |}.

Definition body_hi : ChatBody :=
  {| body_message := Some "hi"; body_agent_type := Some "groq";
     body_model := Some "llama" |}.
Definition body_message_only : ChatBody :=
  {| body_message := Some "hi"; body_agent_type := None; body_model := None |}.
Definition body_empty : ChatBody :=
  {| body_message := None; body_agent_type := None; body_model := None |}.

(** The text the agents page puts in its error panel. *)
Definition error_panel : string :=
  py "<div style=`background: #f8d7da; color: #721c24; padding: 16px; border-radius: 8px;`>
            AgentGateway library not available.
        </div>".

End Gateway.

(** * Properties *)

(** ** Strings *)

Lemma append_cons (x : ascii) (a b : string) :
  String x a +:+ b = String x (a +:+ b).
Proof. reflexivity. Qed.

Lemma append_empty_l (a : string) : "" +:+ a = a.
Proof. reflexivity. Qed.

Lemma append_assoc (a b c : string) : (a +:+ b) +:+ c = a +:+ (b +:+ c).
Proof.
  induction a as [|x a IH]; [done |].
  by rewrite !append_cons, IH.
Qed.

Lemma append_empty_r (a : string) : a +:+ "" = a.
Proof.
  induction a as [|x a IH]; [done |].
  by rewrite append_cons, IH.
Qed.

Lemma startswith_spec (hay needle : string) :
  startswith hay needle = true ↔ ∃ post, hay = needle +:+ post.
Proof.
  revert hay; induction needle as [|a n IH]; intros hay.
  - split; [intros _; by exists hay | by destruct hay].
  - destruct hay as [|b h]; cbn [startswith].
    + split; [done | intros [post H]; discriminate H].
    + destruct (decide (a = b)) as [->|Hne].
      * rewrite IH. split; intros [post H]; exists post.
        -- by rewrite append_cons, H.
        -- rewrite append_cons in H. by injection H.
      * split; [done |].
        intros [post H]. rewrite append_cons in H.
        injection H; intros _ E. by destruct Hne.
Qed.

Lemma str_in_spec (needle hay : string) :
  str_in needle hay = true ↔ Substring needle hay.
Proof.
  unfold Substring. induction hay as [|b h IH]; cbn [str_in].
  - rewrite orb_false_r, startswith_spec. split.
    + intros [post H]. by exists "", post.
    + intros [pre [post H]]. destruct pre; [by exists post | discriminate H].
  - rewrite orb_true_iff, startswith_spec, IH. split.
    + intros [[post H] | [pre [post H]]].
      * by exists "", post.
      * exists (String b pre), post. by rewrite append_cons, H.
    + intros [pre [post H]]. destruct pre as [|x pre].
      * left. by exists post.
      * right. exists pre, post. rewrite append_cons in H. by injection H.
Qed.

Lemma Substring_middle (pre needle post : string) :
  Substring needle (pre +:+ needle +:+ post).
Proof. by exists pre, post. Qed.

(** ** The Context7 service *)

Module Context7Facts.
Import Context7.

(** C9: [GET /health] of the Context7 service answers the JSON object
    with status healthy and service context7-mcp, whatever the request
    holds, and the three endpoints (root info, health, capabilities)
    each answer one literal JSON value that no part of the request can
    change. *)
Theorem endpoints_are_literal (p : route) (q q' b b' : string) :
  health_check
    = JDict [("status", JStr "healthy"); ("service", JStr "context7-mcp")]
  ∧ app {| path := GET_health; query := q; payload := b |}
    = mkResponse 200
        (Json (JDict [("status", JStr "healthy");
                      ("service", JStr "context7-mcp")]))
  ∧ app {| path := GET_root; query := q; payload := b |}
    = mkResponse 200
        (Json (JDict [("message", JStr "Context7 MCP Service");
                      ("version", JStr "0.1.0")]))
  ∧ app {| path := GET_mcp_capabilities; query := q; payload := b |}
    = mkResponse 200
        (Json (JDict [("capabilities",
                       JList [JStr "search"; JStr "upload"; JStr "index"]);
                      ("service", JStr "context7-mcp")]))
  ∧ app {| path := p; query := q; payload := b |}
    = app {| path := p; query := q'; payload := b' |}.
Proof. repeat split; by destruct p. Qed.

End Context7Facts.

(** ** The web interface *)

Module GatewayFacts.
Import Gateway.

(** The guarded import sets the flag to whether the library loaded. *)
Lemma load_flag (import : option Library) :
  AGENTGATEWAY_AVAILABLE (load import) = bool_decide (is_Some import).
Proof. by destruct import. Qed.

(** C4: [GET /health] answers status limited with
    agentgateway_available false when the availability flag is false,
    status healthy with agentgateway_available true when it is true,
    each time with the version string; two module states with the same
    flag get the same answer. *)
Theorem health_check_by_flag (g g' : Globals) :
  (AGENTGATEWAY_AVAILABLE g = false →
     respond Json (health_check g)
     = mkResponse 200
         (Json (JDict [("status", JStr "limited");
                       ("agentgateway_available", JBool false);
                       ("version", JStr "1.0.0")])))
  ∧ (AGENTGATEWAY_AVAILABLE g = true →
       respond Json (health_check g)
       = mkResponse 200
           (Json (JDict [("status", JStr "healthy");
                         ("agentgateway_available", JBool true);
                         ("version", JStr "1.0.0")])))
  ∧ (AGENTGATEWAY_AVAILABLE g = AGENTGATEWAY_AVAILABLE g' →
       health_check g = health_check g').
Proof.
  unfold health_check. repeat split.
  - by intros ->.
  - by intros ->.
  - by intros ->.
Qed.

Lemma health_check_by_flag_witness :
  respond Json (health_check globals_absent)
  = mkResponse 200
      (Json (JDict [("status", JStr "limited");
                    ("agentgateway_available", JBool false);
                    ("version", JStr "1.0.0")]))
  ∧ respond Json (health_check globals_present)
    = mkResponse 200
        (Json (JDict [("status", JStr "healthy");
                      ("agentgateway_available", JBool true);
                      ("version", JStr "1.0.0")]))
  ∧ health_check globals_present = health_check globals_failing.
Proof.
  split; [| split].
  - apply (proj1 (health_check_by_flag globals_absent globals_absent)).
    reflexivity.
  - apply (proj1 (proj2 (health_check_by_flag globals_present globals_present))).
    reflexivity.
  - apply (proj2 (proj2 (health_check_by_flag globals_present globals_failing))).
    reflexivity.
Defined.

(** C3: [GET /api/agents] answers the empty agent list with available
    false when the availability flag is false; otherwise it answers
    available true with a list of exactly four fixed descriptors
    (openai, anthropic, groq, bedrock), each made of an id, a name and
    a description. *)
Theorem list_agents_by_flag (g : Globals) :
  (AGENTGATEWAY_AVAILABLE g = false →
     respond Json (list_agents g)
     = mkResponse 200
         (Json (JDict [("agents", JList []); ("available", JBool false)])))
  ∧ (AGENTGATEWAY_AVAILABLE g = true →
       ∃ descriptors,
         respond Json (list_agents g)
         = mkResponse 200
             (Json (JDict [("agents", JList descriptors);
                           ("available", JBool true)]))
         ∧ length descriptors = 4%nat
         ∧ Forall (λ d, keys d = ["id"; "name"; "description"]) descriptors
         ∧ (λ d, getitem d "id") <$> descriptors
           = [Some (JStr "openai"); Some (JStr "anthropic");
              Some (JStr "groq"); Some (JStr "bedrock")]
         ∧ (λ d, getitem d "name") <$> descriptors
           = [Some (JStr "OpenAI GPT"); Some (JStr "Anthropic Claude");
              Some (JStr "Groq"); Some (JStr "AWS Bedrock")]
         ∧ (λ d, getitem d "description") <$> descriptors
           = [Some (JStr "OpenAI GPT models"); Some (JStr "Claude models");
              Some (JStr "Groq LPU models"); Some (JStr "Bedrock models")]).
Proof.
  unfold list_agents. split; intros ->; simpl.
  - reflexivity.
  - eexists. split; [reflexivity |].
    split; [reflexivity |]. split; [| by repeat split].
    repeat constructor.
Qed.

Lemma list_agents_by_flag_witness :
  respond Json (list_agents globals_absent)
  = mkResponse 200
      (Json (JDict [("agents", JList []); ("available", JBool false)]))
  ∧ ∃ descriptors,
      respond Json (list_agents globals_present)
      = mkResponse 200
          (Json (JDict [("agents", JList descriptors);
                        ("available", JBool true)]))
      ∧ length descriptors = 4%nat.
Proof.
  split.
  - apply (proj1 (list_agents_by_flag globals_absent)). reflexivity.
  - destruct (proj2 (list_agents_by_flag globals_present) eq_refl)
      as (descriptors & Hresp & Hlen & _).
    exists descriptors. by split.
Defined.

(** *** The chat endpoint *)

Lemma chat_try_returns (g : Globals) (gateway : GatewayObject)
    (request : ChatRequest) :
  AgentGateway g = Some (Returned gateway) →
  chat_try g request
  = Returned
      ({| local_gateway := gateway;
          local_agent_type :=
            default OPENAI_GPT (agent_type_map !! agent_type request);
          local_response_text :=
            "Mock response for '" +:+ message request +:+ "' using "
              +:+ agent_type request +:+ " model " +:+ model request |},
       JDict [("response",
               JStr ("Mock response for '" +:+ message request +:+ "' using "
                       +:+ agent_type request +:+ " model " +:+ model request));
              ("agent_type", JStr (agent_type request));
              ("model", JStr (model request));
              ("status", JStr "success")]).
Proof. intros H. unfold chat_try, call_AgentGateway. by rewrite H. Qed.

Lemma mock_text_holds_fields (m a md : string) :
  let text := "Mock response for '" +:+ m +:+ "' using " +:+ a
                +:+ " model " +:+ md in
  Substring m text ∧ Substring a text ∧ Substring md text.
Proof.
  cbn zeta. repeat split.
  - apply Substring_middle.
  - exists ("Mock response for '" +:+ m +:+ "' using "), (" model " +:+ md).
    by rewrite !append_assoc.
  - exists ("Mock response for '" +:+ m +:+ "' using " +:+ a +:+ " model "), "".
    by rewrite !append_assoc, append_empty_r.
Qed.

(** C1, as stated, fails: with the availability flag true the
    constructor of the library can still raise, and the handler then
    answers 500, not 200. *)
Lemma chat_not_200_when_constructor_raises :
  AGENTGATEWAY_AVAILABLE globals_failing = true
  ∧ AgentGateway globals_failing = Some (Raised "boom")
  ∧ respond Json (chat globals_failing request_hi)
    = mkResponse 500 (Json (JDict [("detail", JStr "Error: boom")]))
  ∧ status (respond Json (chat globals_failing request_hi)) ≠ 200.
Proof. by repeat split. Qed.

(** C1, amended: with the availability flag true and the constructor of
    the library returning, the chat handler answers every request with
    HTTP 200 and a response string that holds the caller's message,
    agent_type and model as substrings; the string is the fixed mock
    sentence built from these three fields alone, so nothing is
    inferred. *)
Theorem chat_mock_response (g : Globals) (gateway : GatewayObject)
    (request : ChatRequest) :
  AGENTGATEWAY_AVAILABLE g = true →
  AgentGateway g = Some (Returned gateway) →
  ∃ answer text,
    respond Json (chat g request) = mkResponse 200 (Json answer)
    ∧ getitem answer "response" = Some (JStr text)
    ∧ Substring (message request) text
    ∧ Substring (agent_type request) text
    ∧ Substring (model request) text
    ∧ text = "Mock response for '" +:+ message request +:+ "' using "
               +:+ agent_type request +:+ " model " +:+ model request.
Proof.
  intros Hflag Hctor. unfold chat.
  rewrite Hflag, (chat_try_returns _ _ _ Hctor). cbn [negb].
  eexists _, _. split; [reflexivity |]. split; [reflexivity |].
  pose proof (mock_text_holds_fields (message request) (agent_type request)
                (model request)) as (Hm & Ha & Hmd).
  by repeat split.
Qed.

Lemma chat_mock_response_witness :
  ∃ answer text,
    respond Json (chat globals_present request_hi)
    = mkResponse 200 (Json answer)
    ∧ getitem answer "response" = Some (JStr text)
    ∧ Substring "hi" text ∧ Substring "groq" text ∧ Substring "llama" text
    ∧ text = "Mock response for 'hi' using groq model llama".
Proof.
  exact (chat_mock_response globals_present (gateway_object 0) request_hi
           eq_refl eq_refl).
Defined.

(** C2, as stated, fails: with the library unavailable, a body without
    a message is answered with 422 by the validation of the handler's
    parameter, not with 503. *)
Lemma chat_invalid_body_is_not_503 :
  AGENTGATEWAY_AVAILABLE globals_absent = false
  ∧ status (post_api_chat globals_absent body_empty) = 422
  ∧ status (post_api_chat globals_absent body_empty) ≠ 503.
Proof. by repeat split. Qed.

(** C2, amended: when the library is unavailable, the chat handler
    raises the 503 with the fixed message for every [ChatRequest], so
    the endpoint answers 503 with that message to every body that
    validates as a [ChatRequest], whatever its fields hold. *)
Theorem chat_unavailable_503 (g : Globals) (b : ChatBody)
    (request : ChatRequest) :
  AGENTGATEWAY_AVAILABLE g = false →
  ChatRequest_validate b = Some request →
  chat g request
  = Raise (HTTPException 503 "AgentGateway library not available")
  ∧ post_api_chat g b
    = mkResponse 503
        (Json (JDict [("detail", JStr "AgentGateway library not available")])).
Proof.
  intros Hflag Hvalid. unfold post_api_chat, chat.
  by rewrite Hvalid, Hflag.
Qed.

Lemma chat_unavailable_503_witness :
  chat globals_absent request_hi
  = Raise (HTTPException 503 "AgentGateway library not available")
  ∧ post_api_chat globals_absent body_hi
    = mkResponse 503
        (Json (JDict [("detail", JStr "AgentGateway library not available")])).
Proof.
  exact (chat_unavailable_503 globals_absent body_hi request_hi
           eq_refl eq_refl).
Defined.

(** C5, as stated, fails: the detail of the 500 is not the raw text of
    the exception; for an exception whose text is boom it is the text
    with a prefix. *)
Lemma chat_500_detail_is_prefixed :
  AgentGateway globals_failing = Some (Raised "boom")
  ∧ chat globals_failing request_hi
    = Raise (HTTPException 500 "Error: boom")
  ∧ chat globals_failing request_hi ≠ Raise (HTTPException 500 "boom").
Proof. by repeat split. Qed.

(** C5, amended: with the dependency available, every exception raised
    while the chat response is built is caught and answered with HTTP
    500 whose detail is the string [Error: ] followed by the raw text of
    the exception. *)
Theorem chat_failure_500 (g : Globals) (request : ChatRequest)
    (text : string) :
  AGENTGATEWAY_AVAILABLE g = true →
  AgentGateway g = Some (Raised text) →
  chat g request = Raise (HTTPException 500 ("Error: " +:+ text))
  ∧ respond Json (chat g request)
    = mkResponse 500 (Json (JDict [("detail", JStr ("Error: " +:+ text))])).
Proof.
  intros Hflag Hctor. unfold chat, chat_try, call_AgentGateway.
  by rewrite Hflag, Hctor.
Qed.

Lemma chat_failure_500_witness :
  chat globals_failing request_hi = Raise (HTTPException 500 "Error: boom")
  ∧ respond Json (chat globals_failing request_hi)
    = mkResponse 500 (Json (JDict [("detail", JStr "Error: boom")])).
Proof.
  exact (chat_failure_500 globals_failing request_hi "boom" eq_refl eq_refl).
Defined.

Lemma agent_type_map_default (name : string) :
  name ∉ ["openai"; "anthropic"; "groq"; "bedrock"] →
  default OPENAI_GPT (agent_type_map !! name) = OPENAI_GPT.
Proof.
  rewrite !not_elem_of_cons. intros (H1 & H2 & H3 & H4 & _).
  unfold agent_type_map.
  rewrite !lookup_insert_ne by done.
  by rewrite lookup_singleton_ne.
Qed.

(** C8: for every agent_type string other than openai, anthropic, groq
    and bedrock, the mapping inside the chat handler falls back to
    [OPENAI_GPT] without any error, while the mock response still
    carries the agent_type string the caller asked for. *)
Theorem unknown_agent_type_defaults (g : Globals) (gateway : GatewayObject)
    (request : ChatRequest) :
  AGENTGATEWAY_AVAILABLE g = true →
  AgentGateway g = Some (Returned gateway) →
  agent_type request ∉ ["openai"; "anthropic"; "groq"; "bedrock"] →
  ∃ locals answer,
    chat_try g request = Returned (locals, answer)
    ∧ local_agent_type locals = OPENAI_GPT
    ∧ chat g request = Ok answer
    ∧ getitem answer "response" = Some (JStr (local_response_text locals))
    ∧ Substring (agent_type request) (local_response_text locals)
    ∧ getitem answer "agent_type" = Some (JStr (agent_type request)).
Proof.
  intros Hflag Hctor Hunknown. unfold chat.
  rewrite Hflag, (chat_try_returns _ _ _ Hctor). cbn [negb].
  eexists _, _. split; [reflexivity |]. cbn [local_agent_type local_response_text].
  split; [by apply agent_type_map_default |].
  split; [reflexivity |]. split; [reflexivity |].
  split; [| reflexivity].
  apply mock_text_holds_fields.
Qed.

Lemma unknown_agent_type_defaults_witness :
  ∃ locals answer,
    chat_try globals_present request_mistral = Returned (locals, answer)
    ∧ local_agent_type locals = OPENAI_GPT
    ∧ chat globals_present request_mistral = Ok answer
    ∧ getitem answer "response" = Some (JStr (local_response_text locals))
    ∧ Substring "mistral" (local_response_text locals)
    ∧ getitem answer "agent_type" = Some (JStr "mistral").
Proof.
  refine (unknown_agent_type_defaults globals_present (gateway_object 0)
            request_mistral eq_refl eq_refl _).
  apply (bool_decide_unpack _). by vm_compute.
Defined.

(** C10: of the three fields of a chat request only message is
    required; a body without agent_type is read as agent_type openai
    and one without model as model gpt-3.5-turbo, and fields that are
    given are kept.  With the dependency available the success response
    carries the agent_type and the model of the request verbatim and
    status success. *)
Theorem chat_request_defaults (b : ChatBody) (request : ChatRequest) :
  (is_Some (ChatRequest_validate b) ↔ is_Some (body_message b))
  ∧ (ChatRequest_validate b = Some request →
       body_message b = Some (message request)
       ∧ agent_type request = default "openai" (body_agent_type b)
       ∧ model request = default "gpt-3.5-turbo" (body_model b)
       ∧ (body_agent_type b = None → agent_type request = "openai")
       ∧ (body_model b = None → model request = "gpt-3.5-turbo")
       ∧ ∀ g gateway,
           AGENTGATEWAY_AVAILABLE g = true →
           AgentGateway g = Some (Returned gateway) →
           ∃ answer,
             post_api_chat g b = mkResponse 200 (Json answer)
             ∧ getitem answer "agent_type" = Some (JStr (agent_type request))
             ∧ getitem answer "model" = Some (JStr (model request))
             ∧ getitem answer "status" = Some (JStr "success")).
Proof.
  split.
  - unfold ChatRequest_validate.
    destruct (body_message b) as [m|]; cbn; split; intros [x H]; eauto;
      discriminate H.
  - intros Hvalid. pose proof Hvalid as Hv. unfold ChatRequest_validate in Hv.
    destruct (body_message b) as [m|]; [| discriminate Hv].
    cbn in Hv. injection Hv as <-. cbn [message agent_type model].
    split; [done |]. split; [done |]. split; [done |].
    split; [by intros -> |]. split; [by intros -> |].
    intros g gateway Hflag Hctor. unfold post_api_chat, chat.
    rewrite Hvalid, Hflag, (chat_try_returns _ _ _ Hctor). cbn [negb].
    eexists. split; [reflexivity |]. by repeat split.
Qed.

Lemma chat_request_defaults_witness :
  ∃ answer,
    post_api_chat globals_present body_message_only
    = mkResponse 200 (Json answer)
    ∧ getitem answer "agent_type" = Some (JStr "openai")
    ∧ getitem answer "model" = Some (JStr "gpt-3.5-turbo")
    ∧ getitem answer "status" = Some (JStr "success").
Proof.
  pose proof (chat_request_defaults body_message_only
                {| message := "hi"; agent_type := "openai";
                   model := "gpt-3.5-turbo" |}) as [_ H].
  destruct (H eq_refl) as (_ & _ & _ & _ & _ & Hchat).
  exact (Hchat globals_present (gateway_object 0) eq_refl eq_refl).
Defined.

(** *** Pages *)

(** The two pages that return their literal are served with 200 and a
    non-empty document, whatever the module state and the request. *)
Lemma literal_pages_served (g : Globals) (q : string) (b : RequestBody) :
  ∃ home play,
    app g {| path := GET_root; query := q; payload := b |}
    = Some (mkResponse 200 (Html home))
    ∧ app g {| path := GET_playground; query := q; payload := b |}
      = Some (mkResponse 200 (Html play))
    ∧ home ≠ "" ∧ play ≠ "".
Proof. eexists _, _. by repeat split. Qed.

Lemma agents_reads_flag_only (g g' : Globals) :
  AGENTGATEWAY_AVAILABLE g = AGENTGATEWAY_AVAILABLE g' →
  agents_content g = agents_content g' ∧ agents g = agents g'.
Proof.
  intros H. unfold agents, agents_content, agents_list. rewrite H.
  split; reflexivity.
Qed.

Lemma tools_ignores_globals (g g' : Globals) : tools g = tools g'.
Proof. unfold tools. reflexivity. Qed.

Lemma tools_content_no_panel :
  str_in "AgentGateway library not available" tools_content = false.
Proof. vm_compute. reflexivity. Qed.

Lemma agents_raises (g : Globals) :
  agents g = Some (Raise (KeyError " margin")).
Proof. destruct g as [[] ctor]; vm_compute; reflexivity. Qed.

Lemma tools_raises (g : Globals) :
  tools g = Some (Raise (KeyError " margin")).
Proof. vm_compute. reflexivity. Qed.

(** C6, as stated, fails for the tools page: its handler does not read
    the availability flag, neither the content it builds nor the shared
    template holds the text of the error panel, and with the library
    unavailable it returns no document showing one. *)
Lemma tools_page_has_no_error_panel :
  AGENTGATEWAY_AVAILABLE globals_absent = false
  ∧ tools globals_absent = tools globals_present
  ∧ str_in "AgentGateway library not available" tools_content = false
  ∧ str_in "AgentGateway library not available" HTML_TEMPLATE = false
  ∧ ¬ (∃ html, tools globals_absent = Some (Ok html)
               ∧ str_in error_panel html = true).
Proof.
  split; [reflexivity |]. split; [apply tools_ignores_globals |].
  split; [apply tools_content_no_panel |].
  split; [vm_compute; reflexivity |].
  intros (html & Hpage & _). rewrite tools_raises in Hpage.
  discriminate Hpage.
Qed.

(** C6, amended: the content the agents handler builds for its page
    depends on the availability flag alone; it holds the error panel
    when the flag is false and the agent list without an error panel
    when the flag is true.  The content the tools handler builds is one
    fixed text, the same whatever the flag, and holds no error panel. *)
Theorem page_content_by_flag (g g' : Globals) :
  (AGENTGATEWAY_AVAILABLE g = AGENTGATEWAY_AVAILABLE g' →
     agents_content g = agents_content g' ∧ agents g = agents g')
  ∧ (AGENTGATEWAY_AVAILABLE g = false →
       Substring error_panel (agents_content g))
  ∧ (AGENTGATEWAY_AVAILABLE g = true →
       str_in "AgentGateway library not available" (agents_content g) = false
       ∧ Substring "<h4>OpenAI GPT Agent</h4>" (agents_content g))
  ∧ tools g = tools g'
  ∧ str_in "AgentGateway library not available" tools_content = false
  ∧ Substring "<h4>Web Search Tool</h4>" tools_content.
Proof.
  split; [apply agents_reads_flag_only |].
  split; [| split].
  - intros H. apply str_in_spec. unfold agents_content, agents_list.
    rewrite H. vm_compute. reflexivity.
  - intros H. rewrite <- str_in_spec. unfold agents_content, agents_list.
    rewrite H. vm_compute. split; reflexivity.
  - split; [apply tools_ignores_globals |].
    split; [apply tools_content_no_panel |].
    apply str_in_spec. vm_compute. reflexivity.
Qed.

Lemma page_content_by_flag_witness :
  (agents_content globals_present = agents_content globals_failing
   ∧ agents globals_present = agents globals_failing)
  ∧ Substring error_panel (agents_content globals_absent)
  ∧ str_in "AgentGateway library not available"
      (agents_content globals_present) = false.
Proof.
  pose proof (page_content_by_flag globals_present globals_failing)
    as (Hsame & _ & Hlist & _).
  pose proof (page_content_by_flag globals_absent globals_absent)
    as (_ & Hpanel & _).
  split; [exact (Hsame eq_refl) |].
  split; [exact (Hpanel eq_refl) | exact (proj1 (Hlist eq_refl))].
Defined.

(** C7, on the code: the agents and the tools handler never return a
    document.  Formatting the shared template stops at the first brace
    of its style sheet, whose text up to the colon is taken as a field
    name that is not among the keyword arguments; the [KeyError] is
    served as a bare 500, whatever the module state and the request. *)
Theorem template_pages_raise (g : Globals) (q : string) (b : RequestBody) :
  agents g = Some (Raise (KeyError " margin"))
  ∧ tools g = Some (Raise (KeyError " margin"))
  ∧ app g {| path := GET_agents; query := q; payload := b |}
    = Some (mkResponse 500 (Text "Internal Server Error"))
  ∧ app g {| path := GET_tools; query := q; payload := b |}
    = Some (mkResponse 500 (Text "Internal Server Error")).
Proof.
  split; [apply agents_raises |]. split; [apply tools_raises |].
  unfold app; cbn [path]. rewrite agents_raises, tools_raises.
  split; reflexivity.
Qed.

(** ** Further properties of the web interface *)

(** *** Formatting the shared template *)

Lemma format_literal (kwargs : gmap string string) (text rest : string) :
  brace_free text = true →
  format_from kwargs InLiteral (text +:+ rest)
  = prepend text (format_from kwargs InLiteral rest).
Proof.
  induction text as [|c text IH]; intros Hfree.
  - rewrite append_empty_l. unfold prepend.
    by destruct (format_from kwargs InLiteral rest) as [[out|e]|].
  - cbn [brace_free] in Hfree. apply andb_true_iff in Hfree as [Hc Hfree].
    apply negb_true_iff, bool_decide_eq_false in Hc.
    rewrite append_cons. cbn [format_from].
    destruct (decide (c = "{"%char)) as [->|_]; [destruct Hc; by left |].
    destruct (decide (c = "}"%char)) as [->|_]; [destruct Hc; by right |].
    rewrite (IH Hfree). unfold emit, prepend.
    by destruct (format_from kwargs InLiteral rest) as [[out|e]|].
Qed.

Lemma format_title_field (kwargs : gmap string string) (rest : string) :
  format_from kwargs InLiteral ("{title}" +:+ rest)
  = emit_field (render_field kwargs "title" None "")
      (format_from kwargs InLiteral rest).
Proof. reflexivity. Qed.

Lemma format_margin_field (kwargs : gmap string string) (rest : string) :
  format_from kwargs InLiteral
    ("{ margin: 0; padding: 0; box-sizing: border-box; }" +:+ rest)
  = emit_field
      (render_field kwargs " margin" None
         " 0; padding: 0; box-sizing: border-box; ")
      (format_from kwargs InLiteral rest).
Proof. reflexivity. Qed.

(** The template up to its second replacement field. *)
Lemma HTML_TEMPLATE_head :
  ∃ before between rest,
    HTML_TEMPLATE
    = before +:+ "{title}" +:+ between
        +:+ "{ margin: 0; padding: 0; box-sizing: border-box; }" +:+ rest
    ∧ brace_free before = true ∧ brace_free between = true.
Proof.
  exists (String.substring 0 169 HTML_TEMPLATE),
         (String.substring 176 31 HTML_TEMPLATE),
         (String.substring 257 3231 HTML_TEMPLATE).
  vm_compute. repeat split; reflexivity.
Qed.

(** X1: the shared template cannot be formatted by any keyword call.
    Whatever strings are passed (for the title, the content, the
    navigation marks or anything else), as long as no keyword is the text
    [ margin] of the style sheet, formatting raises a [KeyError]: for
    title when no title is passed, and otherwise for that text. *)
Theorem HTML_TEMPLATE_never_formats (kwargs : gmap string string) :
  kwargs !! " margin" = None →
  ∃ key,
    str_format HTML_TEMPLATE kwargs = Some (Raise (KeyError key))
    ∧ (kwargs !! "title" = None → key = "title")
    ∧ (is_Some (kwargs !! "title") → key = " margin").
Proof.
  intros Hmargin.
  destruct HTML_TEMPLATE_head as (before & between & rest & Hsplit & Hb & Hm).
  unfold str_format. rewrite Hsplit.
  rewrite (format_literal _ _ _ Hb), format_title_field.
  rewrite (format_literal _ _ _ Hm), format_margin_field.
  change (render_field kwargs " margin" None
            " 0; padding: 0; box-sizing: border-box; ")
    with (match kwargs !! " margin" with
          | None => Some (Raise (KeyError " margin"))
          | Some value => @None (result string)
          end).
  change (render_field kwargs "title" None "")
    with (match kwargs !! "title" with
          | None => Some (Raise (KeyError "title"))
          | Some value => Some (Ok value)
          end).
  rewrite Hmargin. destruct (kwargs !! "title") as [value|].
  - exists " margin". split; [reflexivity |]. split; [intros H; discriminate H |].
    reflexivity.
  - exists "title". split; [reflexivity |]. split; [reflexivity |].
    intros [x H]. discriminate H.
Qed.

Lemma HTML_TEMPLATE_never_formats_witness :
  ∃ key,
    str_format HTML_TEMPLATE (<["content" := "text"]> ∅)
    = Some (Raise (KeyError key))
    ∧ key = "title".
Proof.
  assert ((<["content" := "text"]> ∅ : gmap string string) !! " margin" = None)
    as Hmargin by (vm_compute; reflexivity).
  destruct (HTML_TEMPLATE_never_formats _ Hmargin) as (key & Hraise & Hnone & _).
  exists key. split; [exact Hraise |].
  apply Hnone. vm_compute. reflexivity.
Defined.

(** *** The outcomes of the chat handler *)

(** Membership in a list written out, by cases. *)
Ltac list_cases :=
  rewrite ?elem_of_cons, ?elem_of_nil in *;
  intuition (discriminate || congruence).

Lemma append_length (a b : string) :
  String.length (a +:+ b) = (String.length a + String.length b)%nat.
Proof.
  induction a as [|x a IH]; [reflexivity |].
  rewrite append_cons. cbn [String.length]. by rewrite IH.
Qed.

Lemma append_inj_l (s a b : string) : s +:+ a = s +:+ b → a = b.
Proof.
  induction s as [|x s IH]; [by rewrite !append_empty_l |].
  rewrite !append_cons. intros H. injection H as H. by apply IH.
Qed.

Lemma append_inj_r (s a b : string) : a +:+ s = b +:+ s → a = b.
Proof.
  revert b. induction a as [|x a IH]; intros [|y b] H.
  - reflexivity.
  - apply (f_equal String.length) in H.
    rewrite append_empty_l, append_cons in H. cbn [String.length] in H.
    rewrite append_length in H. lia.
  - apply (f_equal String.length) in H.
    rewrite append_empty_l, append_cons in H. cbn [String.length] in H.
    rewrite append_length in H. lia.
  - rewrite !append_cons in H. injection H as -> H. by rewrite (IH _ H).
Qed.

Lemma chat_try_unfold (g : Globals) (request : ChatRequest) :
  chat_try g request
  = match call_AgentGateway g with
    | Returned gateway =>
        Returned
          ({| local_gateway := gateway;
              local_agent_type :=
                default OPENAI_GPT (agent_type_map !! agent_type request);
              local_response_text :=
                "Mock response for '" +:+ message request +:+ "' using "
                  +:+ agent_type request +:+ " model " +:+ model request |},
           JDict [("response",
                   JStr ("Mock response for '" +:+ message request
                           +:+ "' using " +:+ agent_type request
                           +:+ " model " +:+ model request));
                  ("agent_type", JStr (agent_type request));
                  ("model", JStr (model request));
                  ("status", JStr "success")])
    | Raised text => Raised text
    end.
Proof. unfold chat_try. by destruct (call_AgentGateway g). Qed.

(** The chat handler has three outcomes and no other: the 503 when the
    flag is false; with the flag true, the 500 when calling the
    constructor raised, and otherwise a dict with the keys response,
    agent_type, model and status. *)
Lemma chat_outcomes (g : Globals) (request : ChatRequest) :
  (AGENTGATEWAY_AVAILABLE g = false
   ∧ chat g request
     = Raise (HTTPException 503 "AgentGateway library not available"))
  ∨ (AGENTGATEWAY_AVAILABLE g = true
     ∧ ∃ text,
         call_AgentGateway g = Raised text
         ∧ chat g request = Raise (HTTPException 500 ("Error: " +:+ text)))
  ∨ (AGENTGATEWAY_AVAILABLE g = true
     ∧ ∃ gateway answer,
         call_AgentGateway g = Returned gateway
         ∧ chat g request = Ok answer
         ∧ keys answer = ["response"; "agent_type"; "model"; "status"]).
Proof.
  unfold chat. rewrite chat_try_unfold.
  destruct (AGENTGATEWAY_AVAILABLE g); cbn [negb].
  - right. destruct (call_AgentGateway g) as [gateway|text].
    + right. split; [reflexivity |]. by eexists _, _.
    + left. split; [reflexivity |]. by exists text.
  - by left.
Qed.

(** X2: the status of the chat endpoint tells the outcome apart.  For
    every module state and validated request the response is 200, 500 or
    503; it is 503 exactly when the flag is false, and an error response
    is always a JSON object whose only key is detail. *)
Theorem chat_status_by_outcome (g : Globals) (request : ChatRequest) :
  let response := respond Json (chat g request) in
  status response ∈ [200; 500; 503]
  ∧ (status response = 503 ↔ AGENTGATEWAY_AVAILABLE g = false)
  ∧ (status response = 200 ↔ ∃ answer, chat g request = Ok answer)
  ∧ (status response ≠ 200 →
       ∃ detail, body response = Json (JDict [("detail", JStr detail)])).
Proof.
  cbn zeta.
  destruct (chat_outcomes g request)
    as [[Hflag ->] | [[Hflag (text & _ & ->)]
                     | [Hflag (gateway & answer & _ & -> & _)]]];
    cbn [respond status body]; rewrite Hflag.
  - split; [list_cases |]. split; [done |]. split.
    + split; [done | intros [answer H]; discriminate H].
    + intros _. by eexists.
  - split; [list_cases |]. split; [done |]. split.
    + split; [done | intros [answer H]; discriminate H].
    + intros _. by eexists.
  - split; [list_cases |]. split; [done |]. split.
    + split; [by eexists | done].
    + done.
Qed.

Lemma chat_status_by_outcome_witness :
  status (respond Json (chat globals_absent request_hi)) = 503
  ∧ ∃ detail,
      body (respond Json (chat globals_failing request_hi))
      = Json (JDict [("detail", JStr detail)]).
Proof.
  split.
  - apply (proj1 (proj2 (chat_status_by_outcome globals_absent request_hi))).
    reflexivity.
  - apply (proj2 (proj2 (proj2
             (chat_status_by_outcome globals_failing request_hi)))).
    intros H. discriminate H.
Defined.

(** X3: after the guarded import the flag and the constructor agree: the
    flag is true exactly when the import succeeded and the constructor is
    Python's None exactly when the flag is false.  Hence on such a state
    a 500 of the chat handler always carries the text of an exception the
    constructor of the library raised, never the failure of calling
    None. *)
Theorem chat_after_load (import : option Library) (request : ChatRequest)
    (text : string) :
  (AGENTGATEWAY_AVAILABLE (load import) = true ↔ is_Some import)
  ∧ (AgentGateway (load import) = None
     ↔ AGENTGATEWAY_AVAILABLE (load import) = false)
  ∧ (chat (load import) request
     = Raise (HTTPException 500 ("Error: " +:+ text)) →
     ∃ lib, import = Some lib ∧ construct lib = Raised text).
Proof.
  destruct import as [[outcome]|]; cbn [load AGENTGATEWAY_AVAILABLE AgentGateway].
  - split; [split; [by eexists | done] |]. split; [done |].
    unfold chat. rewrite chat_try_unfold. unfold call_AgentGateway.
    cbn [AGENTGATEWAY_AVAILABLE AgentGateway negb].
    destruct outcome as [gateway|text']; intros H; [discriminate H |].
    injection H as H. apply append_inj_l in H as ->. by eexists.
  - split; [split; [done | intros [x H]; discriminate H] |]. split; [done |].
    intros H. discriminate H.
Qed.

Lemma chat_after_load_witness :
  ∃ lib, Some failing_library = Some lib ∧ construct lib = Raised "boom".
Proof.
  apply (proj2 (proj2 (chat_after_load (Some failing_library) request_hi "boom"))).
  reflexivity.
Defined.

(** X4: a successful answer of the chat handler determines the request:
    two requests that get the same answer have the same message, the same
    agent_type and the same model. *)
Theorem chat_answer_determines_request (g : Globals)
    (request request' : ChatRequest) (answer : json) :
  chat g request = Ok answer →
  chat g request' = Ok answer →
  request = request'.
Proof.
  unfold chat. rewrite !chat_try_unfold.
  destruct (AGENTGATEWAY_AVAILABLE g); cbn [negb]; [| intros H; discriminate H].
  destruct (call_AgentGateway g) as [gateway|text]; [| intros H; discriminate H].
  destruct request as [m a md], request' as [m' a' md'].
  cbn [message agent_type model].
  intros H H'. rewrite <- H in H'. injection H' as Htext -> ->.
  apply append_inj_l, append_inj_r in Htext. by rewrite Htext.
Qed.

Lemma chat_answer_determines_request_witness :
  request_hi = request_hi.
Proof.
  exact (chat_answer_determines_request globals_present request_hi request_hi
           _ eq_refl eq_refl).
Defined.

(** *** The agent types behind the chat handler *)

Lemma agent_type_map_lookup (name : string) :
  agent_type_map !! name
  = if decide (name = "openai") then Some OPENAI_GPT
    else if decide (name = "anthropic") then Some ANTHROPIC_CLAUDE
    else if decide (name = "groq") then Some GROQ
    else if decide (name = "bedrock") then Some BEDROCK_CONVERSE
    else None.
Proof.
  unfold agent_type_map.
  destruct (decide (name = "openai")) as [->|H1]; [reflexivity |].
  rewrite lookup_insert_ne by done.
  destruct (decide (name = "anthropic")) as [->|H2]; [reflexivity |].
  rewrite lookup_insert_ne by done.
  destruct (decide (name = "groq")) as [->|H3]; [reflexivity |].
  rewrite lookup_insert_ne by done.
  destruct (decide (name = "bedrock")) as [->|H4]; [reflexivity |].
  by rewrite lookup_singleton_ne.
Qed.

(** X5: which agent type the chat handler selects.  When the constructor
    returns, the selected type is [ANTHROPIC_CLAUDE], [GROQ] or
    [BEDROCK_CONVERSE] exactly for the agent_type strings anthropic, groq
    and bedrock (in lower case, nothing else), it is [OPENAI_GPT] for
    every other string, and it is never one of the further values of the
    enum. *)
Theorem selected_agent_type (g : Globals) (gateway : GatewayObject)
    (request : ChatRequest) :
  AgentGateway g = Some (Returned gateway) →
  ∃ locals answer,
    chat_try g request = Returned (locals, answer)
    ∧ (local_agent_type locals = ANTHROPIC_CLAUDE
       ↔ agent_type request = "anthropic")
    ∧ (local_agent_type locals = GROQ ↔ agent_type request = "groq")
    ∧ (local_agent_type locals = BEDROCK_CONVERSE
       ↔ agent_type request = "bedrock")
    ∧ (local_agent_type locals = OPENAI_GPT
       ↔ agent_type request ∉ ["anthropic"; "groq"; "bedrock"])
    ∧ (∀ name, local_agent_type locals ≠ OTHER_AGENT_TYPE name).
Proof.
  intros Hctor. rewrite (chat_try_returns _ _ _ Hctor).
  eexists _, _. split; [reflexivity |]. cbn [local_agent_type].
  rewrite agent_type_map_lookup, !not_elem_of_cons.
  destruct (decide (agent_type request = "openai")) as [->|H1];
    [cbn [default]; repeat split; try done; intros; by apply not_elem_of_nil |].
  destruct (decide (agent_type request = "anthropic")) as [->|H2];
    [cbn [default]; repeat split; try done; intros (? & _); done |].
  destruct (decide (agent_type request = "groq")) as [->|H3];
    [cbn [default]; repeat split; try done; intros (_ & ? & _); done |].
  destruct (decide (agent_type request = "bedrock")) as [->|H4];
    [cbn [default]; repeat split; try done; intros (_ & _ & ? & _); done |].
  cbn [default]. repeat split; try done. intros; by apply not_elem_of_nil.
Qed.

Lemma selected_agent_type_witness :
  ∃ locals answer,
    chat_try globals_present request_hi = Returned (locals, answer)
    ∧ local_agent_type locals = GROQ.
Proof.
  destruct (selected_agent_type globals_present (gateway_object 0) request_hi
              eq_refl)
    as (locals & answer & Htry & _ & Hgroq & _).
  exists locals, answer. split; [exact Htry |].
  apply (proj2 Hgroq). reflexivity.
Defined.

(** X6: the agent ids offered to a client are the ones the chat handler
    knows.  With the library available, the ids listed by [GET
    /api/agents] are exactly the keys of the mapping of the chat handler,
    each is an option of the form on the playground page, and they select
    four different agent types. *)
Theorem advertised_agent_ids (g : Globals) :
  AGENTGATEWAY_AVAILABLE g = true →
  ∃ descriptors ids page,
    list_agents g
    = Ok (JDict [("agents", JList descriptors); ("available", JBool true)])
    ∧ (λ d, getitem d "id") <$> descriptors = (λ id, Some (JStr id)) <$> ids
    ∧ (∀ id, id ∈ ids ↔ is_Some (agent_type_map !! id))
    ∧ NoDup ((λ id, agent_type_map !! id) <$> ids)
    ∧ playground = Ok page
    ∧ ∀ id, id ∈ ids →
        Substring (py "<option value=`" +:+ id +:+ py "`>") page.
Proof.
  intros Hflag. unfold list_agents, playground. rewrite Hflag. cbn [negb].
  eexists _, ["openai"; "anthropic"; "groq"; "bedrock"], _.
  split; [reflexivity |]. split; [reflexivity |]. split; [| split; [| split]].
  - intros id. rewrite agent_type_map_lookup, !elem_of_cons.
    destruct (decide (id = "openai")) as [->|N1];
      [split; [by eexists | by left] |].
    destruct (decide (id = "anthropic")) as [->|N2];
      [split; [by eexists | by right; left] |].
    destruct (decide (id = "groq")) as [->|N3];
      [split; [by eexists | by right; right; left] |].
    destruct (decide (id = "bedrock")) as [->|N4];
      [split; [by eexists | by right; right; right; left] |].
    split.
    + intros [E|[E|[E|[E|E]]]]; try done. by apply elem_of_nil in E.
    + intros [x E]. discriminate E.
  - rewrite !fmap_cons, !agent_type_map_lookup. cbn.
    apply (bool_decide_unpack _). vm_compute. reflexivity.
  - reflexivity.
  - intros id. rewrite !elem_of_cons.
    intros [->|[->|[->|[->|H]]]]; [| | | | by apply elem_of_nil in H];
      apply str_in_spec; vm_compute; reflexivity.
Qed.

Lemma advertised_agent_ids_witness :
  ∃ descriptors,
    list_agents globals_present
    = Ok (JDict [("agents", JList descriptors); ("available", JBool true)]).
Proof.
  destruct (advertised_agent_ids globals_present eq_refl)
    as (descriptors & ids & page & Hlist & _).
  exists descriptors. exact Hlist.
Defined.

(** *** Across the endpoints *)

(** X7: the three API endpoints agree on availability.  For every module
    state, [GET /health] and [GET /api/agents] report the same boolean,
    namely the flag; the agent list is empty exactly when it is false,
    and [GET /health] reports limited exactly when the chat handler
    refuses requests with the 503. *)
Theorem availability_agrees (g : Globals) (request : ChatRequest) :
  ∃ health listing,
    health_check g = Ok health
    ∧ list_agents g = Ok listing
    ∧ getitem health "agentgateway_available"
      = Some (JBool (AGENTGATEWAY_AVAILABLE g))
    ∧ getitem listing "available" = getitem health "agentgateway_available"
    ∧ (getitem listing "agents" = Some (JList [])
       ↔ AGENTGATEWAY_AVAILABLE g = false)
    ∧ (getitem health "status" = Some (JStr "limited")
       ↔ chat g request
         = Raise (HTTPException 503 "AgentGateway library not available")).
Proof.
  unfold health_check, list_agents.
  destruct (chat_outcomes g request)
    as [[Hflag ->] | [[Hflag (text & _ & ->)]
                     | [Hflag (gateway & answer & _ & -> & _)]]];
    rewrite Hflag; cbn [negb]; eexists _, _;
    (split; [reflexivity |]); (split; [reflexivity |]);
    (split; [reflexivity |]); (split; [reflexivity |]);
    split; split; intros H; try done; discriminate H.
Qed.

Lemma availability_agrees_witness :
  chat globals_absent request_hi
  = Raise (HTTPException 503 "AgentGateway library not available").
Proof.
  destruct (availability_agrees globals_absent request_hi)
    as (health & listing & Hhealth & _ & _ & _ & _ & Hlimited).
  apply (proj1 Hlimited). injection Hhealth as <-. reflexivity.
Defined.

Lemma post_api_chat_body_typed (g : Globals) (b : ChatBody) :
  post_api_chat_body g (ChatBody_json b) = Some (post_api_chat g b).
Proof. by destruct b as [[m|] [a|] [md|]]. Qed.



(** X9: the dashboard does not follow the availability flag.  With the
    library absent, [GET /] still answers 200 with a page that says
    Status: Available, while [GET /health] reports the status limited. *)
Theorem dashboard_ignores_availability (g : Globals) (q : string)
    (b : RequestBody) :
  AGENTGATEWAY_AVAILABLE g = false →
  ∃ page health,
    app g {| path := GET_root; query := q; payload := b |}
    = Some (mkResponse 200 (Html page))
    ∧ Substring "<p>Status: Available</p>" page
    ∧ app g {| path := GET_health; query := q; payload := b |}
      = Some (mkResponse 200 (Json health))
    ∧ getitem health "status" = Some (JStr "limited").
Proof.
  intros Hflag. unfold app, dashboard, health_check. cbn [path respond].
  rewrite Hflag. eexists _, _.
  split; [reflexivity |]. split; [| split; reflexivity].
  apply str_in_spec. vm_compute. reflexivity.
Qed.

Lemma dashboard_ignores_availability_witness :
  ∃ page health,
    app globals_absent
      {| path := GET_root; query := ""; payload := ChatBody_json body_empty |}
    = Some (mkResponse 200 (Html page))
    ∧ Substring "<p>Status: Available</p>" page
    ∧ app globals_absent
        {| path := GET_health; query := ""; payload := ChatBody_json body_empty |}
      = Some (mkResponse 200 (Json health))
    ∧ getitem health "status" = Some (JStr "limited").
Proof.
  exact (dashboard_ignores_availability globals_absent ""
           (ChatBody_json body_empty) eq_refl).
Defined.

Lemma agents_content_available (g : Globals) :
  AGENTGATEWAY_AVAILABLE g = true →
  agents_content g = agents_content globals_present.
Proof.
  intros Hflag. unfold agents_content, agents_list. rewrite Hflag. reflexivity.
Qed.

(** X10: the agents page names more agents than the API offers.  With
    the library available, every agent named by [GET /api/agents] has its
    heading in the content of the agents page, and that content also has
    headings for Fireworks AI and Together AI, which no descriptor of the
    API names. *)
Theorem agents_page_names_more (g : Globals) :
  AGENTGATEWAY_AVAILABLE g = true →
  ∃ descriptors,
    list_agents g
    = Ok (JDict [("agents", JList descriptors); ("available", JBool true)])
    ∧ (∀ d, d ∈ descriptors →
         ∃ name, getitem d "name" = Some (JStr name)
                 ∧ Substring ("<h4>" +:+ name +:+ " Agent</h4>")
                     (agents_content g))
    ∧ (∀ extra, extra ∈ ["Fireworks AI"; "Together AI"] →
         Substring ("<h4>" +:+ extra +:+ " Agent</h4>") (agents_content g)
         ∧ ∀ d, d ∈ descriptors → getitem d "name" ≠ Some (JStr extra)).
Proof.
  intros Hflag. rewrite (agents_content_available g Hflag).
  unfold list_agents. rewrite Hflag. cbn [negb].
  eexists. split; [reflexivity |]. split.
  - intros d. rewrite !elem_of_cons, elem_of_nil.
    intros [->|[->|[->|[->|[]]]]]; eexists; (split; [reflexivity |]);
      apply str_in_spec; vm_compute; reflexivity.
  - intros extra. rewrite !elem_of_cons, elem_of_nil.
    intros [->|[->|[]]]; (split; [apply str_in_spec; vm_compute; reflexivity |]);
      intros d; rewrite !elem_of_cons, elem_of_nil;
      intros [->|[->|[->|[->|[]]]]] H; discriminate H.
Qed.

Lemma agents_page_names_more_witness :
  ∃ descriptors,
    list_agents globals_present
    = Ok (JDict [("agents", JList descriptors); ("available", JBool true)])
    ∧ length descriptors = 4%nat.
Proof.
  destruct (agents_page_names_more globals_present eq_refl)
    as (descriptors & Hlist & _).
  exists descriptors. split; [exact Hlist |].
  injection Hlist as <-. reflexivity.
Defined.

End GatewayFacts.
